(** * The video SIP gateway middleware of jitsi-meet

    A shallow embedding of [react/features/videosipgw/middleware.js]: the
    redux middleware that reacts to [CONFERENCE_WILL_JOIN] and
    [SIP_GW_INVITE_ROOMS], the two conference listeners it registers, and the
    action creators [_availabilityChanged] and [_sessionStateChanged].

    The middleware is effectful: it calls [next], reads the store, dispatches
    actions, registers listeners, calls into lib-jitsi-meet and logs.  It is
    written here in a small state-and-trace monad; every effect leaves one
    event in the trace, in program order.  The two places where the
    middleware builds a log message out of a value ([`${status}`] and
    [JSON.stringify(room)]) can throw; a block of statements therefore ends
    normally, by [return], or by a thrown exception. *)

From Stdlib Require Import String Ascii List ZArith Bool Lia DecimalString.
Import ListNotations.
Open Scope string_scope.
Open Scope list_scope.

(** ** JavaScript values

    The middleware is untyped at run time: a room's [id] and [name], the
    gateway status and an event's [newState] are whatever the caller put
    there.  Numbers are kept to integers (no NaN), objects are opaque
    references; what converting an object to a string or to JSON gives is
    left to [JSBuiltins] below. *)

Inductive js_value : Type :=
| JUndefined
| JNull
| JBool (b : bool)
| JNum (n : Z)
| JStr (s : string)
| JObj (ref : nat).

(** ToBoolean, as used by [if (x)] and [x && y]. *)
Definition truthy (v : js_value) : bool :=
  match v with
  | JUndefined => false
  | JNull => false
  | JBool b => b
  | JNum n => negb (n =? 0)%Z
  | JStr s => negb (s =? "")
  | JObj _ => true
  end.

(** The [===] operator, also used by [switch] to select a [case]. *)
Definition strict_eq (a b : js_value) : bool :=
  match a, b with
  | JUndefined, JUndefined => true
  | JNull, JNull => true
  | JBool x, JBool y => Bool.eqb x y
  | JNum x, JNum y => (x =? y)%Z
  | JStr x, JStr y => (x =? y)
  | JObj x, JObj y => Nat.eqb x y
  | _, _ => false
  end.

(** What the middleware can throw while it builds a log message. *)
Inductive js_exception : Type := TypeError.

(** An object literal such as [{ displayName }]: keys in source order. *)
Definition js_object : Type := list (string * js_value).

(** ** Objects owned by lib-jitsi-meet *)

(** A [JitsiConference] handle. *)
Inductive conference : Type := Conference (ref : nat).

(** A [JitsiVideoSIPGWSession] handle. *)
Inductive session : Type := Session (ref : nat).

(** A JavaScript [Error]; only its [message] is inspected. *)
Record js_error : Type := { message : js_value }.

(** What [createVideoSIPGWSession] hands back: a session, or an [Error]
    (returned, not thrown; the middleware tests [instanceof Error]). *)
Inductive create_result : Type :=
| NewSession (s : session)
| NewError (e : js_error).

(** The constants of [JitsiSIPVideoGWStatus] the middleware compares
    against.  lib-jitsi-meet is a separate package; its values are taken
    as parameters. *)
Class JitsiSIPVideoGWStatus : Type := {
  STATUS_UNDEFINED : js_value;
  STATUS_BUSY : js_value;
  STATUS_AVAILABLE : js_value;
  STATE_PENDING : js_value;
  STATE_FAILED : js_value;
  ERROR_NO_CONNECTION : js_value;
  ERROR_SESSION_EXISTS : js_value
}.

(** The two [JitsiConferenceEvents] the middleware subscribes to. *)
Inductive JitsiConferenceEvents : Type :=
| VIDEO_SIP_GW_AVAILABILITY_CHANGED
| VIDEO_SIP_GW_SESSION_STATE_CHANGED.

(** The mutable side of lib-jitsi-meet seen through the two calls the
    middleware makes.  [Engine] is whatever state the library keeps. *)
Class VideoSIPGW (Engine : Type) : Type := {
  createVideoSIPGWSession :
    conference -> js_value -> js_value -> Engine -> create_result * Engine;
  start : session -> Engine -> Engine
}.

(** ** Notifications *)

Inductive severity : Type := info | warning | error.

(** The component handed to [showNotification]. *)
Inductive component : Type := Notification.

(** The props object literal of a notification; absent keys are [None]. *)
Record notification_props : Type := {
  titleKey : option string;
  titleArguments : option js_object;
  descriptionKey : option string;
  descriptionArguments : option js_object
}.

Record notification : Type := {
  n_severity : severity;
  n_props : notification_props;
  n_timeout : option Z
}.

(** ** Actions, rooms and the store *)

(** A room descriptor of [action.rooms]; a missing property destructures
    to [JUndefined]. *)
Record room : Type := { id : js_value; name : js_value }.

(** The two conversions the middleware applies to values it did not
    create.  Both are built into the language and depend on the object
    behind a [JObj] reference: [ToString] is the conversion of a template
    literal [`${v}`], [JSON_stringify] is [JSON.stringify] of a room.
    [None] stands for a thrown [TypeError] (an object without a usable
    [toString], a circular structure, a throwing [toJSON]). *)
Class JSBuiltins : Type := {
  ToString : js_value -> option string;
  JSON_stringify : room -> option string
}.

(** Redux actions, tagged by their [type]. *)
Inductive action : Type :=
| CONFERENCE_WILL_JOIN
| SIP_GW_INVITE_ROOMS (rooms : list room) (conf : conference)
| SIP_GW_AVAILABILITY_CHANGED (status : js_value)
| SHOW_NOTIFICATION (n : notification)
| OTHER_ACTION (type : string).

(** The two slices of [getState()] the middleware reads:
    [getState()['features/base/conference'].joining] and
    [getState()['features/videosipgw'].status]. *)
Record store_state : Type := {
  joining : conference;
  status : js_value
}.

(** The session-state event object. *)
Record session_event : Type := {
  newState : js_value;
  displayName : js_value
}.

(** Modelled from the spec: the notifications feature ([showNotification],
    [showErrorNotification], [showWarningNotification]) is imported from
    ['../notifications'] and is not among the sources.  Following the
    outbound interface of the specification, each builds a show-notification
    action of the matching severity around the given props; only
    [showNotification] takes an auto-dismiss timeout. *)
Definition showNotification
  (c : component) (props : notification_props) (timeout : option Z) : action :=
  SHOW_NOTIFICATION
    {| n_severity := info; n_props := props; n_timeout := timeout |}.

Definition showErrorNotification (props : notification_props) : action :=
  SHOW_NOTIFICATION
    {| n_severity := error; n_props := props; n_timeout := None |}.

Definition showWarningNotification (props : notification_props) : action :=
  SHOW_NOTIFICATION
    {| n_severity := warning; n_props := props; n_timeout := None |}.

(** ** Effects *)

(** The listeners registered on the conference. *)
Inductive listener : Type :=
| AvailabilityListener
| SessionStateListener.

(** What [logger.error] is called with: the unknown-status message with
    the text [`${status}`] gave, the unknown-error message with the error
    object, the missing-field message with the text
    [JSON.stringify(room)] gave. *)
Inductive log_entry : Type :=
| UnknownStatus (status : string)
| UnknownCreateError (e : js_error)
| NoDisplayNameOrSipNumber (room : string).

(** One entry per effect, in program order. *)
Inductive event : Type :=
| Next (a : action)
| Dispatch (a : action)
| ConferenceOn (c : conference) (evt : JitsiConferenceEvents) (l : listener)
| Create (c : conference) (sipAddress displayName : js_value)
         (r : create_result)
| Start (s : session)
| LoggerError (l : log_entry).

Definition trace : Type := list event.

(** How a block of statements ends: it runs off its end, executes a
    [return], or an exception leaves it. *)
Inductive completion : Type :=
| Normal
| Return (v : js_value)
| Throw (e : js_exception).

Section Middleware.

Context {K : JitsiSIPVideoGWStatus} {B : JSBuiltins}.
Context {Engine : Type} {V : VideoSIPGW Engine}.

(** The redux store and the library state, threaded through every call. *)
Record world : Type := {
  w_store : store_state;
  w_engine : Engine
}.

Definition M (A : Type) : Type := world -> A * world * trace.

Definition ret {A : Type} (a : A) : M A := fun w => (a, w, []).

Definition bind {A B : Type} (m : M A) (f : A -> M B) : M B :=
  fun w =>
    let '(a, w1, t1) := m w in
    let '(b, w2, t2) := f a w1 in
    (b, w2, t1 ++ t2).

Notation "x <- m ;; k" := (bind m (fun x => k))
  (at level 61, m at next level, right associativity).
Notation "m ;;; k" := (bind m (fun _ => k))
  (at level 61, right associativity).

(** The rest of the middleware chain and the reducers. *)
Definition next_fn : Type := action -> store_state -> js_value * store_state.

Definition call_next (next : next_fn) (a : action) : M js_value :=
  fun w =>
    let '(r, st) := next a (w_store w) in
    (r, {| w_store := st; w_engine := w_engine w |}, [Next a]).

Definition getState : M store_state := fun w => (w_store w, w, []).

Definition dispatch (a : action) : M unit := fun w => (tt, w, [Dispatch a]).

Definition conference_on
  (c : conference) (evt : JitsiConferenceEvents) (l : listener) : M unit :=
  fun w => (tt, w, [ConferenceOn c evt l]).

Definition conference_createVideoSIPGWSession
  (c : conference) (sipAddress displayName : js_value) : M create_result :=
  fun w =>
    let '(r, e) := createVideoSIPGWSession c sipAddress displayName (w_engine w) in
    (r, {| w_store := w_store w; w_engine := e |},
     [Create c sipAddress displayName r]).

Definition session_start (s : session) : M unit :=
  fun w =>
    (tt, {| w_store := w_store w; w_engine := start s (w_engine w) |},
     [Start s]).

Definition logger_error (l : log_entry) : M unit :=
  fun w => (tt, w, [LoggerError l]).

(** ** The action creators *)

Definition _availabilityChanged (status : js_value) : action :=
  SIP_GW_AVAILABILITY_CHANGED status.

Definition _sessionStateChanged (event : session_event) : option action :=
  if strict_eq (newState event) STATE_PENDING then
    Some (showNotification Notification
            {| titleKey := Some "videoSIPGW.pending";
               titleArguments := Some [("displayName", displayName event)];
               descriptionKey := None;
               descriptionArguments := None |}
            (Some 2000%Z))
  else if strict_eq (newState event) STATE_FAILED then
    Some (showErrorNotification
            {| titleKey := Some "videoSIPGW.errorInviteFailedTitle";
               titleArguments := Some [("displayName", displayName event)];
               descriptionKey := Some "videoSIPGW.errorInviteFailed";
               descriptionArguments := None |})
  else
    None.

(** ** The conference listeners *)

(** [(...args) => dispatch(_availabilityChanged(...args))] *)
Definition availabilityListener (args : list js_value) : M unit :=
  dispatch (_availabilityChanged (nth 0 args JUndefined)).

(** [event => { const toDispatch = _sessionStateChanged(event);
                if (toDispatch) { dispatch(toDispatch); } }] *)
Definition sessionStateListener (event : session_event) : M unit :=
  match _sessionStateChanged event with
  | Some toDispatch => dispatch toDispatch
  | None => ret tt
  end.

(** The argument a listener is called with. *)
Definition listener_arg (l : listener) : Type :=
  match l with
  | AvailabilityListener => list js_value
  | SessionStateListener => session_event
  end.

(** The function registered under each listener tag. *)
Definition call_listener (l : listener) : listener_arg l -> M unit :=
  match l with
  | AvailabilityListener => availabilityListener
  | SessionStateListener => sessionStateListener
  end.

(** ** The middleware *)

(** The [for (const room of action.rooms)] loop. *)
Fixpoint inviteRooms (conf : conference) (rooms : list room) : M completion :=
  match rooms with
  | [] => ret Normal
  | room :: rest =>
      let sipAddress := id room in
      let displayName := name room in
      if truthy sipAddress && truthy displayName then
        newSession <- conference_createVideoSIPGWSession
                        conf sipAddress displayName ;;
        match newSession with
        | NewError e =>
            if strict_eq (message e) ERROR_NO_CONNECTION then
              dispatch (showErrorNotification
                {| titleKey := Some "videoSIPGW.errorInviteTitle";
                   titleArguments := None;
                   descriptionKey := Some "videoSIPGW.errorInvite";
                   descriptionArguments := None |}) ;;;
              ret (Return JUndefined)
            else if strict_eq (message e) ERROR_SESSION_EXISTS then
              dispatch (showWarningNotification
                {| titleKey := Some "videoSIPGW.errorAlreadyInvited";
                   titleArguments := Some [("displayName", displayName)];
                   descriptionKey := None;
                   descriptionArguments := None |}) ;;;
              ret (Return JUndefined)
            else
              logger_error (UnknownCreateError e) ;;;
              ret (Return JUndefined)
        | NewSession s =>
            session_start s ;;;
            inviteRooms conf rest
        end
      else
        match JSON_stringify room with
        | Some json =>
            logger_error (NoDisplayNameOrSipNumber json) ;;;
            inviteRooms conf rest
        | None => ret (Throw TypeError)
        end
  end.

(** The body of [switch (action.type)]. *)
Definition handle (a : action) : M completion :=
  match a with
  | CONFERENCE_WILL_JOIN =>
      st <- getState ;;
      let conference := joining st in
      conference_on conference
        VIDEO_SIP_GW_AVAILABILITY_CHANGED AvailabilityListener ;;;
      conference_on conference
        VIDEO_SIP_GW_SESSION_STATE_CHANGED SessionStateListener ;;;
      ret Normal
  | SIP_GW_INVITE_ROOMS rooms conf =>
      st <- getState ;;
      let status := status st in
      if strict_eq status STATUS_UNDEFINED then
        dispatch (showErrorNotification
          {| titleKey := Some "videoSIPGW.unavailableTitle";
             titleArguments := None;
             descriptionKey := Some "recording.unavailable";
             descriptionArguments :=
               Some [("serviceName", JStr "$t(videoSIPGW.serviceName)")] |}) ;;;
        ret (Return JUndefined)
      else if strict_eq status STATUS_BUSY then
        dispatch (showWarningNotification
          {| titleKey := Some "videoSIPGW.busyTitle";
             titleArguments := None;
             descriptionKey := Some "videoSIPGW.busy";
             descriptionArguments := None |}) ;;;
        ret (Return JUndefined)
      else if negb (strict_eq status STATUS_AVAILABLE) then
        match ToString status with
        | Some text =>
            logger_error (UnknownStatus text) ;;;
            ret (Return JUndefined)
        | None => ret (Throw TypeError)
        end
      else
        inviteRooms conf rooms
  | _ => ret Normal
  end.

(** [({ dispatch, getState }) => next => action => { ... }]: the call
    ends by [return;], by [return result], or by the exception that left
    the switch. *)
Definition middleware (next : next_fn) (a : action) : M completion :=
  result <- call_next next a ;;
  c <- handle a ;;
  match c with
  | Return v => ret (Return v)
  | Normal => ret (Return result)
  | Throw e => ret (Throw e)
  end.

End Middleware.

Arguments world : clear implicits.
Arguments M : clear implicits.

(** ** Reading a run *)

Definition value_of {Engine A : Type} (r : A * world Engine * trace) : A :=
  fst (fst r).

Definition world_of {Engine A : Type} (r : A * world Engine * trace)
  : world Engine :=
  snd (fst r).

Definition trace_of {Engine A : Type} (r : A * world Engine * trace) : trace :=
  snd r.

(** The world the handler runs in: [next(action)] has already run the
    reducers. *)
Definition after_next {Engine : Type}
  (next : next_fn) (a : action) (w : world Engine) : world Engine :=
  {| w_store := snd (next a (w_store w)); w_engine := w_engine w |}.

(** What [next(action)] returned. *)
Definition result_of_next {Engine : Type}
  (next : next_fn) (a : action) (w : world Engine) : js_value :=
  fst (next a (w_store w)).

(** The status the invite-rooms handler reads from [getState()]. *)
Definition status_read {Engine : Type}
  (next : next_fn) (a : action) (w : world Engine) : js_value :=
  status (w_store (after_next next a w)).

(** The actions handed to [dispatch], in order. *)
Definition dispatched (t : trace) : list action :=
  flat_map (fun e => match e with Dispatch a => [a] | _ => [] end) t.

(** The actions handed to [next], in order. *)
Definition nexts (t : trace) : list action :=
  flat_map (fun e => match e with Next a => [a] | _ => [] end) t.

(** The arguments of every [createVideoSIPGWSession] call, in order. *)
Definition created (t : trace) : list (conference * js_value * js_value) :=
  flat_map
    (fun e => match e with Create c a n _ => [(c, a, n)] | _ => [] end) t.

(** The sessions [createVideoSIPGWSession] returned, in order. *)
Definition created_sessions (t : trace) : list session :=
  flat_map
    (fun e => match e with Create _ _ _ (NewSession s) => [s] | _ => [] end) t.

(** The errors [createVideoSIPGWSession] returned, in order. *)
Definition create_errors (t : trace) : list js_error :=
  flat_map
    (fun e => match e with Create _ _ _ (NewError x) => [x] | _ => [] end) t.

(** The sessions [start()] was called on, in order. *)
Definition started (t : trace) : list session :=
  flat_map (fun e => match e with Start s => [s] | _ => [] end) t.

(** What was passed to [logger.error], in order. *)
Definition logged (t : trace) : list log_entry :=
  flat_map (fun e => match e with LoggerError l => [l] | _ => [] end) t.

(** The listeners registered with [conference.on], in order. *)
Definition registered (t : trace)
  : list (conference * JitsiConferenceEvents * listener) :=
  flat_map
    (fun e => match e with ConferenceOn c v l => [(c, v, l)] | _ => [] end) t.

(** The test [sipAddress && displayName] of the loop body. *)
Definition has_address_and_name (r : room) : bool :=
  truthy (id r) && truthy (name r).

(** The call the loop makes for a room that passes the test. *)
Definition call_for (conf : conference) (r : room)
  : conference * js_value * js_value :=
  (conf, id r, name r).

Definition is_notification (s : severity) (a : action) : bool :=
  match a with
  | SHOW_NOTIFICATION n =>
      match n_severity n, s with
      | info, info | warning, warning | error, error => true
      | _, _ => false
      end
  | _ => false
  end.

(** The title arguments a dispatched notification carries. *)
Definition title_arguments (a : action) : option js_object :=
  match a with
  | SHOW_NOTIFICATION n => titleArguments (n_props n)
  | _ => None
  end.

Definition timeout_of (a : action) : option Z :=
  match a with
  | SHOW_NOTIFICATION n => n_timeout n
  | _ => None
  end.



(** The actions the switch has no case for. *)
Definition passes_through (a : action) : bool :=
  match a with
  | CONFERENCE_WILL_JOIN => false
  | SIP_GW_INVITE_ROOMS _ _ => false
  | _ => true
  end.

Definition is_error_or_warning (a : action) : bool :=
  is_notification error a || is_notification warning a.

(** The log entries of the unknown-error path of the loop. *)
Definition is_unknown_create_error (l : log_entry) : bool :=
  match l with
  | UnknownCreateError _ => true
  | _ => false
  end.

(** The log entry the loop writes for a room that fails its test, given
    the text [JSON.stringify] returned for it. *)
Definition skipped (json : string) : event :=
  LoggerError (NoDisplayNameOrSipNumber json).

(** ** A concrete setting to run the middleware in *)

(** String constants in the style of lib-jitsi-meet's VideoSIPGWConstants. *)
Definition sample_constants : JitsiSIPVideoGWStatus := {|
  STATUS_UNDEFINED := JStr "undefined";
  STATUS_BUSY := JStr "busy";
  STATUS_AVAILABLE := JStr "available";
  STATE_PENDING := JStr "pending";
  STATE_FAILED := JStr "failed";
  ERROR_NO_CONNECTION := JStr "error_no_connection";
  ERROR_SESSION_EXISTS := JStr "error_session_already_exists"
|}.

(** Sample conversions.  Every object of the sample heap refers to itself
    and has no prototype, so it converts neither to a string nor to JSON;
    primitive values convert as the language prescribes (numbers are
    printed in plain decimal, which is what JavaScript does below 1e21). *)
Definition dquote : string := String (ascii_of_nat 34) EmptyString.
Definition backslash : string := String (ascii_of_nat 92) EmptyString.

Definition decimal (n : Z) : string := NilZero.string_of_int (Z.to_int n).

Definition hex_digit (n : nat) : string :=
  match String.get n "0123456789abcdef" with
  | Some c => String c EmptyString
  | None => "0"
  end.

(** The escape [JSON.stringify] writes for one character of a string. *)
Definition json_escape_char (c : ascii) : string :=
  let n := nat_of_ascii c in
  (if Nat.eqb n 34 then backslash ++ dquote
   else if Nat.eqb n 92 then backslash ++ backslash
   else if Nat.eqb n 8 then backslash ++ "b"
   else if Nat.eqb n 9 then backslash ++ "t"
   else if Nat.eqb n 10 then backslash ++ "n"
   else if Nat.eqb n 12 then backslash ++ "f"
   else if Nat.eqb n 13 then backslash ++ "r"
   else if Nat.ltb n 32 then
     backslash ++ "u00" ++ hex_digit (n / 16) ++ hex_digit (n mod 16)
   else String c EmptyString)%string.

Fixpoint json_escape (s : string) : string :=
  match s with
  | EmptyString => EmptyString
  | String c rest => (json_escape_char c ++ json_escape rest)%string
  end.

(** A property value in JSON: [None] when serializing it throws,
    [Some None] when the property is left out. *)
Definition json_value (v : js_value) : option (option string) :=
  match v with
  | JUndefined => Some None
  | JNull => Some (Some "null")
  | JBool true => Some (Some "true")
  | JBool false => Some (Some "false")
  | JNum n => Some (Some (decimal n))
  | JStr s => Some (Some (dquote ++ json_escape s ++ dquote)%string)
  | JObj _ => None
  end.

Definition json_member (key : string) (v : option string) : list string :=
  match v with
  | Some text => [(dquote ++ key ++ dquote ++ ":" ++ text)%string]
  | None => []
  end.

Definition sample_builtins : JSBuiltins := {|
  ToString := fun v =>
    match v with
    | JUndefined => Some "undefined"
    | JNull => Some "null"
    | JBool true => Some "true"
    | JBool false => Some "false"
    | JNum n => Some (decimal n)
    | JStr s => Some s
    | JObj _ => None
    end;
  JSON_stringify := fun r =>
    match json_value (id r), json_value (name r) with
    | Some i, Some n =>
        Some ("{"
              ++ String.concat "," (json_member "id" i ++ json_member "name" n)%list
              ++ "}")%string
    | _, _ => None
    end
|}.

(** A scripted library: each [createVideoSIPGWSession] call answers with
    the next entry of the script (a fresh session once the script is
    used up), and [start] records the session. *)
Record scripted : Type := {
  script : list create_result;
  running : list session
}.

Definition scripted_gw : VideoSIPGW scripted := {|
  createVideoSIPGWSession := fun _ _ _ e =>
    match script e with
    | [] => (NewSession (Session (length (running e))), e)
    | r :: rest => (r, {| script := rest; running := running e |})
    end;
  start := fun s e => {| script := script e; running := running e ++ [s] |}
|}.

(** A [next] that leaves the store alone and returns a fixed value. *)
Definition sample_next (a : action) (st : store_state)
  : js_value * store_state :=
  (JStr "next-result", st).

Definition sample_world (st : js_value) (sc : list create_result)
  : world scripted :=
  {| w_store := {| joining := Conference 7; status := st |};
     w_engine := {| script := sc; running := [] |} |}.

Definition sample_conf : conference := Conference 1.

(** The middleware run on an invite-rooms action, with the given status in
    the store and the given script in the library. *)
Definition sample_invite
  (st : js_value) (sc : list create_result) (rooms : list room)
  : completion * world scripted * trace :=
  middleware (K := sample_constants) (B := sample_builtins)
    (V := scripted_gw) sample_next
    (SIP_GW_INVITE_ROOMS rooms sample_conf) (sample_world st sc).

Definition session_exists : create_result :=
  NewError {| message := JStr "error_session_already_exists" |}.
Definition no_connection : create_result :=
  NewError {| message := JStr "error_no_connection" |}.
Definition out_of_memory : create_result :=
  NewError {| message := JStr "out of memory" |}.

Definition alice : room := {| id := JStr "sip:a"; name := JStr "Alice" |}.
Definition bob : room := {| id := JStr "sip:b"; name := JStr "Bob" |}.
Definition carol : room := {| id := JStr "sip:c"; name := JStr "Carol" |}.
Definition nameless : room := {| id := JStr "sip:x"; name := JUndefined |}.
Definition no_id : room := {| id := JUndefined; name := JStr "Dave" |}.

(** The JSON text of [no_id]: one member, the name. *)
Definition no_id_json : string :=
  ("{" ++ dquote ++ "name" ++ dquote ++ ":" ++ dquote ++ "Dave" ++ dquote
   ++ "}")%string.

(** The JSON text of [nameless]: one member, the id. *)
Definition nameless_json : string :=
  ("{" ++ dquote ++ "id" ++ dquote ++ ":" ++ dquote ++ "sip:x" ++ dquote
   ++ "}")%string.


(** * Basic facts *)

(** ** Values *)

Lemma strict_eq_true (a b : js_value) : strict_eq a b = true <-> a = b.
Proof.
  destruct a, b; simpl; split; intros H;
    try discriminate; try reflexivity; try congruence.
  - apply Bool.eqb_prop in H; congruence.
  - injection H as ->; apply Bool.eqb_reflx.
  - apply Z.eqb_eq in H; congruence.
  - injection H as ->; apply Z.eqb_refl.
  - apply String.eqb_eq in H; congruence.
  - injection H as ->; apply String.eqb_refl.
  - apply Nat.eqb_eq in H; congruence.
  - injection H as ->; apply Nat.eqb_refl.
Qed.

Lemma strict_eq_refl (a : js_value) : strict_eq a a = true.
Proof. now apply strict_eq_true. Qed.

Lemma strict_eq_false (a b : js_value) : strict_eq a b = false <-> a <> b.
Proof.
  split.
  - intros H E. apply strict_eq_true in E. congruence.
  - intros H. destruct (strict_eq a b) eqn:E; [|reflexivity].
    apply strict_eq_true in E. contradiction.
Qed.

(** A missing or empty field fails the loop's test. *)
Lemma missing_field_fails_test (r : room) :
  id r = JUndefined \/ name r = JUndefined \/
  id r = JStr "" \/ name r = JStr "" ->
  has_address_and_name r = false.
Proof.
  unfold has_address_and_name.
  intros [H | [H | [H | H]]]; rewrite H; simpl;
    try reflexivity; apply andb_false_r.
Qed.

(** ** Traces *)

Lemma dispatched_app (t u : trace) :
  dispatched (t ++ u) = dispatched t ++ dispatched u.
Proof. apply flat_map_app. Qed.

Lemma created_app (t u : trace) : created (t ++ u) = created t ++ created u.
Proof. apply flat_map_app. Qed.

Lemma created_sessions_app (t u : trace) :
  created_sessions (t ++ u) = created_sessions t ++ created_sessions u.
Proof. apply flat_map_app. Qed.

Lemma create_errors_app (t u : trace) :
  create_errors (t ++ u) = create_errors t ++ create_errors u.
Proof. apply flat_map_app. Qed.

Lemma started_app (t u : trace) : started (t ++ u) = started t ++ started u.
Proof. apply flat_map_app. Qed.

Lemma logged_app (t u : trace) : logged (t ++ u) = logged t ++ logged u.
Proof. apply flat_map_app. Qed.

Lemma nexts_app (t u : trace) : nexts (t ++ u) = nexts t ++ nexts u.
Proof. apply flat_map_app. Qed.

(** ** The loop over the rooms *)

Section Loop.

Context {K : JitsiSIPVideoGWStatus} {B : JSBuiltins}.
Context {Engine : Type} {V : VideoSIPGW Engine}.

Implicit Types (w : world Engine) (conf : conference) (r : room).

Ltac run :=
  unfold bind, ret, dispatch, logger_error, session_start,
    conference_createVideoSIPGWSession, conference_on, getState, call_next;
  cbn [fst snd w_store w_engine].

(** A room that fails the test and can be serialized costs one log entry
    and nothing else. *)
Lemma inviteRooms_skip conf r rest w json :
  has_address_and_name r = false ->
  JSON_stringify r = Some json ->
  inviteRooms conf (r :: rest) w =
  let '(c, w', t) := inviteRooms conf rest w in
  (c, w', LoggerError (NoDisplayNameOrSipNumber json) :: t).
Proof.
  unfold has_address_and_name. intros H Hj.
  cbn [inviteRooms]. rewrite H, Hj. run.
  destruct (inviteRooms conf rest w) as [[c w'] t]. reflexivity.
Qed.

(** A room that fails the test and cannot be serialized ends the loop by
    an exception, before anything is logged. *)
Lemma inviteRooms_throw conf r rest w :
  has_address_and_name r = false ->
  JSON_stringify r = None ->
  inviteRooms conf (r :: rest) w = (Throw TypeError, w, []).
Proof.
  unfold has_address_and_name. intros H Hj.
  cbn [inviteRooms]. rewrite H, Hj. reflexivity.
Qed.

(** A room whose session is created has it started, and the loop goes on. *)
Lemma inviteRooms_created conf r rest w s e :
  has_address_and_name r = true ->
  createVideoSIPGWSession conf (id r) (name r) (w_engine w) = (NewSession s, e) ->
  inviteRooms conf (r :: rest) w =
  let '(c, w', t) :=
    inviteRooms conf rest {| w_store := w_store w; w_engine := start s e |} in
  (c, w', Create conf (id r) (name r) (NewSession s) :: Start s :: t).
Proof.
  unfold has_address_and_name. intros H Hc.
  cbn [inviteRooms]. rewrite H. run. rewrite Hc. cbn [w_store w_engine].
  destruct (inviteRooms conf rest _) as [[c w'] t]. reflexivity.
Qed.

(** The one step of the loop that ends it by [return;]: the call is
    followed by a single event, an error or warning notification or the
    log entry of the unknown-error path. *)
Lemma inviteRooms_error_step conf r rest w x e :
  has_address_and_name r = true ->
  createVideoSIPGWSession conf (id r) (name r) (w_engine w) = (NewError x, e) ->
  exists ev,
    inviteRooms conf (r :: rest) w =
      (Return JUndefined, {| w_store := w_store w; w_engine := e |},
       [Create conf (id r) (name r) (NewError x); ev]) /\
    ((exists n, ev = Dispatch n /\ is_error_or_warning n = true) \/
     ev = LoggerError (UnknownCreateError x)).
Proof.
  unfold has_address_and_name. intros Hr Hc.
  cbn [inviteRooms]. rewrite Hr. run. rewrite Hc.
  destruct (strict_eq (message x) ERROR_NO_CONNECTION).
  { eexists. split; [reflexivity|]. left. eexists. split; reflexivity. }
  destruct (strict_eq (message x) ERROR_SESSION_EXISTS).
  { eexists. split; [reflexivity|]. left. eexists. split; reflexivity. }
  eexists. split; [reflexivity|]. right. reflexivity.
Qed.

(** Induction over a run of the loop, one case per way a room is dealt
    with. *)
Lemma inviteRooms_run_ind conf
  (P : list room -> world Engine -> completion * world Engine * trace -> Prop) :
  (forall w, P [] w (Normal, w, [])) ->
  (forall r rest w json c w' t,
     has_address_and_name r = false ->
     JSON_stringify r = Some json ->
     inviteRooms conf rest w = (c, w', t) ->
     P rest w (c, w', t) ->
     P (r :: rest) w (c, w', skipped json :: t)) ->
  (forall r rest w,
     has_address_and_name r = false ->
     JSON_stringify r = None ->
     P (r :: rest) w (Throw TypeError, w, [])) ->
  (forall r rest w s e c w' t,
     has_address_and_name r = true ->
     createVideoSIPGWSession conf (id r) (name r) (w_engine w)
       = (NewSession s, e) ->
     inviteRooms conf rest {| w_store := w_store w; w_engine := start s e |}
       = (c, w', t) ->
     P rest {| w_store := w_store w; w_engine := start s e |} (c, w', t) ->
     P (r :: rest) w
       (c, w', Create conf (id r) (name r) (NewSession s) :: Start s :: t)) ->
  (forall r rest w x e ev,
     has_address_and_name r = true ->
     createVideoSIPGWSession conf (id r) (name r) (w_engine w)
       = (NewError x, e) ->
     (exists n, ev = Dispatch n /\ is_error_or_warning n = true) \/
     ev = LoggerError (UnknownCreateError x) ->
     P (r :: rest) w
       (Return JUndefined, {| w_store := w_store w; w_engine := e |},
        [Create conf (id r) (name r) (NewError x); ev])) ->
  forall l w, P l w (inviteRooms conf l w).
Proof.
  intros Hnil Hskip Hthrow Hok Herr l.
  induction l as [|r rest IH]; intros w; [apply Hnil|].
  destruct (has_address_and_name r) eqn:Hr.
  - destruct (createVideoSIPGWSession conf (id r) (name r) (w_engine w))
      as [[s|x] e] eqn:Hc.
    + rewrite (inviteRooms_created _ _ _ _ _ _ Hr Hc).
      specialize (IH {| w_store := w_store w; w_engine := start s e |}).
      destruct (inviteRooms conf rest _) as [[c w'] t] eqn:Hrun.
      eapply Hok; eassumption.
    + destruct (inviteRooms_error_step conf r rest w x e Hr Hc)
        as (ev & -> & Hev).
      eapply Herr; eassumption.
  - destruct (JSON_stringify r) as [json|] eqn:Hj.
    + rewrite (inviteRooms_skip _ _ _ _ _ Hr Hj).
      specialize (IH w).
      destruct (inviteRooms conf rest w) as [[c w'] t] eqn:Hrun.
      now apply Hskip.
    + rewrite (inviteRooms_throw _ _ _ _ Hr Hj). now apply Hthrow.
Qed.

(** The loop over [l1 ++ l2] runs [l1], and runs [l2] only if [l1] ran off
    its end. *)
Lemma inviteRooms_app conf l1 l2 w :
  inviteRooms conf (l1 ++ l2) w =
  match inviteRooms conf l1 w with
  | (Normal, w1, t1) =>
      let '(c, w2, t2) := inviteRooms conf l2 w1 in (c, w2, t1 ++ t2)
  | (Return v, w1, t1) => (Return v, w1, t1)
  | (Throw e, w1, t1) => (Throw e, w1, t1)
  end.
Proof.
  revert w. induction l1 as [|r l1 IH]; intros w.
  - cbn [app inviteRooms]. run.
    destruct (inviteRooms conf l2 w) as [[c w2] t2]. reflexivity.
  - rewrite <- app_comm_cons.
    destruct (has_address_and_name r) eqn:Hr.
    + destruct (createVideoSIPGWSession conf (id r) (name r) (w_engine w))
        as [[s|x] e] eqn:Hc.
      * rewrite !(inviteRooms_created _ _ _ _ _ _ Hr Hc), IH.
        destruct (inviteRooms conf l1 _) as [[[|v|ex] w1] t1];
          [|reflexivity|reflexivity].
        destruct (inviteRooms conf l2 w1) as [[c w2] t2]. reflexivity.
      * unfold has_address_and_name in Hr.
        cbn [inviteRooms]. rewrite Hr. run. rewrite Hc.
        destruct (strict_eq (message x) ERROR_NO_CONNECTION); [reflexivity|].
        destruct (strict_eq (message x) ERROR_SESSION_EXISTS); reflexivity.
    + destruct (JSON_stringify r) as [json|] eqn:Hj.
      * rewrite !(inviteRooms_skip _ _ _ _ _ Hr Hj), IH.
        destruct (inviteRooms conf l1 w) as [[[|v|ex] w1] t1];
          [|reflexivity|reflexivity].
        destruct (inviteRooms conf l2 w1) as [[c w2] t2]. reflexivity.
      * rewrite !(inviteRooms_throw _ _ _ _ Hr Hj). reflexivity.
Qed.

(** The loop never touches the store. *)
Lemma inviteRooms_store conf l w :
  w_store (world_of (inviteRooms conf l w)) = w_store w.
Proof.
  revert l w.
  apply (inviteRooms_run_ind conf
    (fun l w run => w_store (world_of run) = w_store w));
    unfold world_of; cbn [fst snd w_store]; auto.
Qed.

(** What a loop that ran off its end has done: one call per room that
    passes the test, in order, every returned session started, every other
    room logged, nothing dispatched and no error returned. *)
Lemma inviteRooms_Normal conf l w w' t :
  inviteRooms conf l w = (Normal, w', t) ->
  dispatched t = [] /\
  create_errors t = [] /\
  created t = map (call_for conf) (filter has_address_and_name l) /\
  started t = created_sessions t /\
  length (logged t) =
    length (filter (fun r => negb (has_address_and_name r)) l).
Proof.
  revert w' t. revert l w.
  apply (inviteRooms_run_ind conf
    (fun l w run =>
       forall w' t, run = (Normal, w', t) ->
       dispatched t = [] /\
       create_errors t = [] /\
       created t = map (call_for conf) (filter has_address_and_name l) /\
       started t = created_sessions t /\
       length (logged t) =
         length (filter (fun r => negb (has_address_and_name r)) l))).
  - intros w w' t H. injection H as _ <-. now repeat split.
  - intros r rest w json c w1 t1 Hr _ _ IH w' t H.
    injection H as -> -> <-.
    destruct (IH _ _ eq_refl) as (Hd & He & Hcr & Hs & Hlog).
    cbn [filter]. rewrite Hr. cbn.
    fold (dispatched t1) (create_errors t1) (created t1)
      (started t1) (created_sessions t1) (logged t1).
    repeat split; try assumption; f_equal; assumption.
  - discriminate.
  - intros r rest w s e c w1 t1 Hr _ _ IH w' t H.
    injection H as -> -> <-.
    destruct (IH _ _ eq_refl) as (Hd & He & Hcr & Hs & Hlog).
    cbn [filter]. rewrite Hr. cbn.
    fold (dispatched t1) (create_errors t1) (created t1)
      (started t1) (created_sessions t1) (logged t1).
    repeat split; try assumption; f_equal; assumption.
  - discriminate.
Qed.

(** The loop ends in one of three ways: off its end with no error
    returned, by [return;] with exactly one, or by the exception of a room
    that fails the test and cannot be serialized. *)
Lemma inviteRooms_completion conf l w :
  (value_of (inviteRooms conf l w) = Normal /\
   create_errors (trace_of (inviteRooms conf l w)) = []) \/
  (value_of (inviteRooms conf l w) = Return JUndefined /\
   exists x, create_errors (trace_of (inviteRooms conf l w)) = [x]) \/
  (value_of (inviteRooms conf l w) = Throw TypeError /\
   create_errors (trace_of (inviteRooms conf l w)) = [] /\
   exists r, In r l /\ has_address_and_name r = false /\
             JSON_stringify r = None).
Proof.
  revert l w.
  apply (inviteRooms_run_ind conf
    (fun l w run =>
       (value_of run = Normal /\ create_errors (trace_of run) = []) \/
       (value_of run = Return JUndefined /\
        exists x, create_errors (trace_of run) = [x]) \/
       (value_of run = Throw TypeError /\
        create_errors (trace_of run) = [] /\
        exists r, In r l /\ has_address_and_name r = false /\
                  JSON_stringify r = None)));
    unfold value_of, trace_of; cbn [fst snd].
  - intros w. left. split; reflexivity.
  - intros r rest w json c w' t _ _ _ [H | [H | (Hv & He & r' & Hin & H')]].
    + left. exact H.
    + right. left. exact H.
    + right. right. repeat split; auto. exists r'. split; [now right|exact H'].
  - intros r rest w Hr Hj. right. right. repeat split.
    exists r. split; [now left|split; assumption].
  - intros r rest w s e c w' t _ _ _ [H | [H | (Hv & He & r' & Hin & H')]].
    + left. exact H.
    + right. left. exact H.
    + right. right. repeat split; auto. exists r'. split; [now right|exact H'].
  - intros r rest w x e ev _ _ [(n & -> & _) | ->];
      right; left; split; try reflexivity; now exists x.
Qed.

Lemma filter_all_pass (l : list room) :
  forallb has_address_and_name l = true ->
  filter has_address_and_name l = l.
Proof.
  induction l as [|r l IH]; [reflexivity|].
  cbn. intros H. apply andb_true_iff in H as [Hr Hl].
  rewrite Hr. f_equal. auto.
Qed.

End Loop.

(** ** The middleware as a whole *)

Section Handler.

Context {K : JitsiSIPVideoGWStatus} {B : JSBuiltins}.
Context {Engine : Type} {V : VideoSIPGW Engine}.

Implicit Types (w : world Engine) (conf : conference) (r : room)
  (next : next_fn) (a : action).

(** The middleware is [next(action)] followed by the switch. *)
Lemma middleware_run next a w :
  middleware next a w =
  let '(c, w', t) := handle a (after_next next a w) in
  (match c with
   | Return v => Return v
   | Normal => Return (result_of_next next a w)
   | Throw e => Throw e
   end,
   w', Next a :: t).
Proof.
  unfold middleware, bind, call_next, after_next, result_of_next, ret.
  destruct (next a (w_store w)) as [res st]. cbn [fst snd].
  destruct (handle a _) as [[[|v|e] w'] t]; now rewrite app_nil_r.
Qed.

(** Under AVAILABLE the switch case is the loop. *)
Lemma handle_available rooms conf w :
  status (w_store w) = STATUS_AVAILABLE ->
  STATUS_AVAILABLE <> STATUS_UNDEFINED ->
  STATUS_AVAILABLE <> STATUS_BUSY ->
  handle (SIP_GW_INVITE_ROOMS rooms conf) w = inviteRooms conf rooms w.
Proof.
  intros Hs Hu Hb. unfold handle, bind, getState. cbn [fst snd].
  rewrite Hs.
  apply strict_eq_false in Hu, Hb. rewrite Hu, Hb, strict_eq_refl.
  cbn [negb]. destruct (inviteRooms conf rooms w) as [[c w'] t]. reflexivity.
Qed.

(** The invite-rooms case is the loop (and then the status is AVAILABLE),
    or a single notification or log entry followed by [return;], or the
    exception of a status that has no text. *)
Lemma handle_invite_shape rooms conf w :
  (strict_eq (status (w_store w)) STATUS_AVAILABLE = true /\
   handle (SIP_GW_INVITE_ROOMS rooms conf) w = inviteRooms conf rooms w) \/
  (exists ev,
     handle (SIP_GW_INVITE_ROOMS rooms conf) w = (Return JUndefined, w, [ev]) /\
     ((exists n, ev = Dispatch n /\ is_error_or_warning n = true) \/
      (exists text, ToString (status (w_store w)) = Some text /\
                    ev = LoggerError (UnknownStatus text)))) \/
  (ToString (status (w_store w)) = None /\
   handle (SIP_GW_INVITE_ROOMS rooms conf) w = (Throw TypeError, w, [])).
Proof.
  unfold handle, bind, getState. cbn [fst snd].
  destruct (strict_eq (status (w_store w)) STATUS_UNDEFINED).
  { right. left. eexists. split; [reflexivity|].
    left. eexists. split; reflexivity. }
  destruct (strict_eq (status (w_store w)) STATUS_BUSY).
  { right. left. eexists. split; [reflexivity|].
    left. eexists. split; reflexivity. }
  destruct (strict_eq (status (w_store w)) STATUS_AVAILABLE); cbn [negb].
  - left. split; [reflexivity|].
    destruct (inviteRooms conf rooms w) as [[c w'] t]. reflexivity.
  - destruct (ToString (status (w_store w))) as [text|].
    + right. left. eexists. split; [reflexivity|].
      right. exists text. split; reflexivity.
    + right. right. split; reflexivity.
Qed.

(** The loop calls neither [next] nor [conference.on]. *)
Lemma inviteRooms_nexts conf l w :
  nexts (trace_of (inviteRooms conf l w)) = [].
Proof.
  revert l w.
  apply (inviteRooms_run_ind conf
    (fun l w run => nexts (trace_of run) = []));
    unfold trace_of; cbn [snd]; auto.
  intros r rest w x e ev _ _ [(n & -> & _) | ->]; reflexivity.
Qed.

Lemma handle_nexts a w : nexts (trace_of (handle a w)) = [].
Proof.
  destruct a as [|rooms conf| | |]; try reflexivity.
  destruct (handle_invite_shape rooms conf w)
    as [[_ ->] | [(ev & -> & [(n & -> & _) | (text & _ & ->)]) | [_ ->]]];
    try reflexivity.
  apply inviteRooms_nexts.
Qed.

End Handler.

(** * Properties of the middleware *)

Section Claims.

Context {K : JitsiSIPVideoGWStatus} {B : JSBuiltins}.
Context {Engine : Type} {V : VideoSIPGW Engine}.

Implicit Types (w : world Engine) (conf : conference) (r : room)
  (next : next_fn) (a : action).

(** C9: whatever the action and whatever branch follows, the first thing
    the middleware does is [next(action)], and it does so exactly once. *)
Theorem C9_next_called_first_and_once next a w :
  (exists t, trace_of (middleware next a w) = Next a :: t) /\
  nexts (trace_of (middleware next a w)) = [a].
Proof.
  rewrite middleware_run.
  pose proof (handle_nexts a (after_next next a w)) as H.
  destruct (handle a _) as [[c w'] t]. unfold trace_of in *. cbn [snd] in *.
  split; [now exists t|].
  cbn. fold (nexts t). now rewrite H.
Qed.

(** C5: on conference-will-join the availability listener is registered
    for the availability-changed event of the joining conference, and for
    every value [newStatus] it is called with it dispatches exactly one
    action, [SIP_GW_AVAILABILITY_CHANGED] carrying [newStatus] unchanged. *)
Theorem C5_availability_forwarded_unchanged next w newStatus more :
  In (joining (w_store (after_next next CONFERENCE_WILL_JOIN w)),
      VIDEO_SIP_GW_AVAILABILITY_CHANGED, AvailabilityListener)
     (registered (trace_of (middleware next CONFERENCE_WILL_JOIN w))) /\
  _availabilityChanged newStatus = SIP_GW_AVAILABILITY_CHANGED newStatus /\
  call_listener AvailabilityListener (newStatus :: more) w =
    (tt, w, [Dispatch (SIP_GW_AVAILABILITY_CHANGED newStatus)]).
Proof.
  split; [|split; reflexivity].
  rewrite middleware_run. cbn. left. reflexivity.
Qed.

(** C4: the session-state listener is registered on conference-will-join;
    called with an event whose [newState] is PENDING it dispatches exactly
    one info notification whose title arguments carry the event's display
    name and whose timeout is 2000; with FAILED, exactly one error
    notification whose title arguments carry the display name; with any
    other [newState], [_sessionStateChanged] returns null and nothing is
    dispatched. *)
Theorem C4_session_state_notifications next w (ev : session_event) :
  STATE_FAILED <> STATE_PENDING ->
  In (joining (w_store (after_next next CONFERENCE_WILL_JOIN w)),
      VIDEO_SIP_GW_SESSION_STATE_CHANGED, SessionStateListener)
     (registered (trace_of (middleware next CONFERENCE_WILL_JOIN w))) /\
  (newState ev = STATE_PENDING ->
   exists n,
     _sessionStateChanged ev = Some n /\
     call_listener SessionStateListener ev w = (tt, w, [Dispatch n]) /\
     is_notification info n = true /\
     title_arguments n = Some [("displayName", displayName ev)] /\
     timeout_of n = Some 2000%Z) /\
  (newState ev = STATE_FAILED ->
   exists n,
     _sessionStateChanged ev = Some n /\
     call_listener SessionStateListener ev w = (tt, w, [Dispatch n]) /\
     is_notification error n = true /\
     title_arguments n = Some [("displayName", displayName ev)]) /\
  (newState ev <> STATE_PENDING -> newState ev <> STATE_FAILED ->
   _sessionStateChanged ev = None /\
   call_listener SessionStateListener ev w = (tt, w, [])).
Proof.
  intros Hd. split; [|split; [|split]].
  - rewrite middleware_run. cbn. right. left. reflexivity.
  - intros Hp. eexists.
    cbn [call_listener]. unfold sessionStateListener, _sessionStateChanged.
    rewrite Hp, strict_eq_refl. repeat split.
  - intros Hf. eexists.
    cbn [call_listener]. unfold sessionStateListener, _sessionStateChanged.
    rewrite Hf, strict_eq_refl.
    apply strict_eq_false in Hd. rewrite Hd. repeat split.
  - intros Hp Hf. apply strict_eq_false in Hp, Hf.
    cbn [call_listener]. unfold sessionStateListener, _sessionStateChanged.
    rewrite Hp, Hf. split; reflexivity.
Qed.

(** C2: an invite-rooms command that reads status UNDEFINED dispatches
    exactly one error notification, and one that reads BUSY exactly one
    warning notification; in both cases [createVideoSIPGWSession] and
    [start] are never called and nothing else happens after [next]. *)
Theorem C2_undefined_or_busy_stops next rooms conf w :
  let a := SIP_GW_INVITE_ROOMS rooms conf in
  let t := trace_of (middleware next a w) in
  (status_read next a w = STATUS_UNDEFINED ->
   exists n,
     dispatched t = [n] /\ is_notification error n = true /\
     created t = [] /\ started t = [] /\
     t = [Next a; Dispatch n]) /\
  (status_read next a w = STATUS_BUSY ->
   STATUS_BUSY <> STATUS_UNDEFINED ->
   exists n,
     dispatched t = [n] /\ is_notification warning n = true /\
     created t = [] /\ started t = [] /\
     t = [Next a; Dispatch n]).
Proof.
  intros a t. subst t. rewrite middleware_run. subst a.
  unfold status_read, handle, bind, getState. cbn [fst snd]. split.
  - intros ->. rewrite strict_eq_refl. eexists. repeat split.
  - intros -> Hd. apply strict_eq_false in Hd.
    rewrite Hd, strict_eq_refl. eexists. repeat split.
Qed.

(** C8: an invite-rooms command calls [createVideoSIPGWSession] only if
    the status it read is AVAILABLE.  When the status is none of
    UNDEFINED, BUSY and AVAILABLE, nothing is dispatched and no session is
    created or started; and when that status converts to a text, the
    handler logs the unknown status with that text and returns
    [undefined], doing nothing else. *)
Theorem C8_sessions_created_only_when_available next rooms conf w :
  let a := SIP_GW_INVITE_ROOMS rooms conf in
  let t := trace_of (middleware next a w) in
  (created t <> [] -> status_read next a w = STATUS_AVAILABLE) /\
  (status_read next a w <> STATUS_UNDEFINED ->
   status_read next a w <> STATUS_BUSY ->
   status_read next a w <> STATUS_AVAILABLE ->
   dispatched t = [] /\ created t = [] /\ started t = [] /\
   forall text,
     ToString (status_read next a w) = Some text ->
     t = [Next a; LoggerError (UnknownStatus text)] /\
     value_of (middleware next a w) = Return JUndefined).
Proof.
  intros a t. subst t. rewrite middleware_run. subst a.
  unfold status_read. split.
  - destruct (handle_invite_shape rooms conf
                (after_next next (SIP_GW_INVITE_ROOMS rooms conf) w))
      as [[Hs _] | [(ev & -> & [(n & -> & _) | (text & _ & ->)]) | [_ ->]]].
    + intros _. now apply strict_eq_true.
    + intros H. now elim H.
    + intros H. now elim H.
    + intros H. now elim H.
  - intros Hu Hb Ha. apply strict_eq_false in Hu, Hb, Ha.
    unfold handle, bind, getState. cbn [fst snd].
    rewrite Hu, Hb, Ha. cbn [negb].
    destruct (ToString (status (w_store (after_next next _ w)))) as [text'|].
    + repeat apply conj; try reflexivity.
      intros text H. injection H as <-. split; reflexivity.
    + repeat apply conj; try reflexivity. discriminate.
Qed.

(** C1: under status AVAILABLE, let the rooms before [r] be handled without
    an error and let the call for [r] return an error.  If its code is
    no-connection, exactly one notification is dispatched by the whole
    command and it is an error notification; if it is session-exists,
    exactly one, a warning whose title arguments carry [r]'s display name.
    In both cases the call for [r] is the last one made: no room of [post]
    is looked at. *)
Theorem C1_recognized_error_notifies_and_stops
  next pre r post conf w w1 t1 x e :
  let a := SIP_GW_INVITE_ROOMS (pre ++ r :: post) conf in
  let t := trace_of (middleware next a w) in
  status_read next a w = STATUS_AVAILABLE ->
  STATUS_AVAILABLE <> STATUS_UNDEFINED ->
  STATUS_AVAILABLE <> STATUS_BUSY ->
  inviteRooms conf pre (after_next next a w) = (Normal, w1, t1) ->
  has_address_and_name r = true ->
  createVideoSIPGWSession conf (id r) (name r) (w_engine w1) = (NewError x, e) ->
  (message x = ERROR_NO_CONNECTION ->
   exists n,
     t = Next a :: t1 ++ [Create conf (id r) (name r) (NewError x); Dispatch n]
     /\ dispatched t = [n] /\ is_notification error n = true /\
     created t =
       map (call_for conf) (filter has_address_and_name pre ++ [r]))
  /\
  (message x = ERROR_SESSION_EXISTS ->
   ERROR_SESSION_EXISTS <> ERROR_NO_CONNECTION ->
   exists n,
     t = Next a :: t1 ++ [Create conf (id r) (name r) (NewError x); Dispatch n]
     /\ dispatched t = [n] /\ is_notification warning n = true /\
     title_arguments n = Some [("displayName", name r)] /\
     created t =
       map (call_for conf) (filter has_address_and_name pre ++ [r])).
Proof.
  intros a t Hs Hu Hb Hpre Hr Hc. subst t.
  rewrite middleware_run. subst a.
  rewrite (handle_available _ _ _ Hs Hu Hb), inviteRooms_app, Hpre.
  destruct (inviteRooms_Normal _ _ _ _ _ Hpre) as (Hd & _ & Hcr & _).
  unfold has_address_and_name in Hr.
  cbn [inviteRooms]. rewrite Hr.
  unfold bind, conference_createVideoSIPGWSession, dispatch, ret.
  rewrite Hc. unfold trace_of, dispatched, created in *. split.
  - intros Hm. rewrite Hm, strict_eq_refl. cbn [fst snd app].
    eexists. split; [reflexivity|].
    cbn. rewrite !flat_map_app, Hd, Hcr, map_app. repeat split.
  - intros Hm Hd'. apply strict_eq_false in Hd'.
    rewrite Hm, Hd', strict_eq_refl. cbn [fst snd app].
    eexists. split; [reflexivity|].
    cbn. rewrite !flat_map_app, Hd, Hcr, map_app. repeat split.
Qed.

(** C7: under status AVAILABLE, let the rooms before [r] be handled without
    an error and let the call for [r] return an error whose code is neither
    no-connection nor session-exists.  The error is logged, the command
    dispatches no notification at all, and the call for [r] is the last one
    made: no room of [post] is looked at. *)
Theorem C7_unrecognized_error_logged_and_stops
  next pre r post conf w w1 t1 x e :
  let a := SIP_GW_INVITE_ROOMS (pre ++ r :: post) conf in
  let t := trace_of (middleware next a w) in
  status_read next a w = STATUS_AVAILABLE ->
  STATUS_AVAILABLE <> STATUS_UNDEFINED ->
  STATUS_AVAILABLE <> STATUS_BUSY ->
  inviteRooms conf pre (after_next next a w) = (Normal, w1, t1) ->
  has_address_and_name r = true ->
  createVideoSIPGWSession conf (id r) (name r) (w_engine w1) = (NewError x, e) ->
  message x <> ERROR_NO_CONNECTION ->
  message x <> ERROR_SESSION_EXISTS ->
  t = Next a :: t1 ++ [Create conf (id r) (name r) (NewError x);
                       LoggerError (UnknownCreateError x)] /\
  logged t = logged t1 ++ [UnknownCreateError x] /\
  dispatched t = [] /\
  created t = map (call_for conf) (filter has_address_and_name pre ++ [r]) /\
  value_of (middleware next a w) = Return JUndefined.
Proof.
  intros a t Hs Hu Hb Hpre Hr Hc Hn He. subst t.
  rewrite middleware_run. subst a.
  rewrite (handle_available _ _ _ Hs Hu Hb), inviteRooms_app, Hpre.
  destruct (inviteRooms_Normal _ _ _ _ _ Hpre) as (Hd & _ & Hcr & _).
  unfold has_address_and_name in Hr.
  cbn [inviteRooms]. rewrite Hr.
  unfold bind, conference_createVideoSIPGWSession, logger_error, ret.
  rewrite Hc. apply strict_eq_false in Hn, He. rewrite Hn, He.
  unfold trace_of, value_of, dispatched, created, logged in *.
  cbn [fst snd app]. split; [reflexivity|].
  cbn. rewrite !flat_map_app, Hd, Hcr, map_app. repeat split.
Qed.

(** C3: under status AVAILABLE, if every room passes the test on its
    address and display name and no [createVideoSIPGWSession] call returns
    an error, then the calls made are exactly one per room, in the order of
    the rooms, [start()] is called on exactly the sessions returned, one
    per room, nothing is dispatched, and the result of [next] is
    returned. *)
Theorem C3_all_rooms_invited_in_order next rooms conf w :
  let a := SIP_GW_INVITE_ROOMS rooms conf in
  let t := trace_of (middleware next a w) in
  status_read next a w = STATUS_AVAILABLE ->
  STATUS_AVAILABLE <> STATUS_UNDEFINED ->
  STATUS_AVAILABLE <> STATUS_BUSY ->
  forallb has_address_and_name rooms = true ->
  create_errors t = [] ->
  created t = map (call_for conf) rooms /\
  started t = created_sessions t /\
  length (started t) = length rooms /\
  dispatched t = [] /\
  value_of (middleware next a w) = Return (result_of_next next a w).
Proof.
  intros a t Hs Hu Hb Hall. subst t.
  rewrite middleware_run. subst a.
  rewrite (handle_available _ _ _ Hs Hu Hb).
  destruct (inviteRooms_completion conf rooms
              (after_next next (SIP_GW_INVITE_ROOMS rooms conf) w))
    as [[Hv _] | [[_ [x Hx]] | (_ & _ & r & Hin & Hr & _)]].
  - destruct (inviteRooms conf rooms _) as [[c w'] t] eqn:Hrun.
    unfold value_of, trace_of in *. cbn [fst snd] in *. subst c.
    destruct (inviteRooms_Normal _ _ _ _ _ Hrun) as (Hd & _ & Hcr & Hst & _).
    rewrite (filter_all_pass _ Hall) in Hcr. intros _.
    assert (Hlen : length (started t) = length rooms).
    { assert (Hcs : length (created_sessions t) = length (created t)).
      { clear - Hrun. pose proof (inviteRooms_Normal _ _ _ _ _ Hrun)
          as (_ & He & _). clear Hrun.
        induction t as [|[| | |c a n [s|y]| |] t IH]; cbn in *;
          try discriminate; auto. }
      rewrite Hst, Hcs, Hcr. apply length_map. }
    cbn. fold (created t) (started t) (created_sessions t) (dispatched t).
    repeat split; assumption.
  - destruct (inviteRooms conf rooms _) as [[c w'] t].
    unfold trace_of in *. cbn [snd] in *. intros H.
    cbn in H. fold (create_errors t) in H. congruence.
  - rewrite forallb_forall in Hall. rewrite (Hall r Hin) in Hr.
    discriminate.
Qed.



End Claims.

(** * Concrete runs *)

(** Two rooms, both created: two calls in order, two starts, no
    notification, the result of [next] returned. *)
Example invite_alice_and_bob :
  sample_invite (JStr "available") [] [alice; bob] =
  (Return (JStr "next-result"),
   {| w_store := {| joining := Conference 7; status := JStr "available" |};
      w_engine := {| script := []; running := [Session 0; Session 1] |} |},
   [Next (SIP_GW_INVITE_ROOMS [alice; bob] sample_conf);
    Create sample_conf (JStr "sip:a") (JStr "Alice") (NewSession (Session 0));
    Start (Session 0);
    Create sample_conf (JStr "sip:b") (JStr "Bob") (NewSession (Session 1));
    Start (Session 1)]).
Proof. reflexivity. Qed.

(** A room without an id is logged, the next one is still invited. *)
Example invite_skips_room_without_id :
  trace_of (sample_invite (JStr "available") [] [no_id; bob]) =
  [Next (SIP_GW_INVITE_ROOMS [no_id; bob] sample_conf);
   LoggerError (NoDisplayNameOrSipNumber no_id_json);
   Create sample_conf (JStr "sip:b") (JStr "Bob") (NewSession (Session 0));
   Start (Session 0)].
Proof. reflexivity. Qed.

(** The first room already has a session: one warning, nothing for Bob. *)
Example invite_stops_at_existing_session :
  sample_invite (JStr "available") [session_exists] [alice; bob] =
  (Return JUndefined, sample_world (JStr "available") [],
   [Next (SIP_GW_INVITE_ROOMS [alice; bob] sample_conf);
    Create sample_conf (JStr "sip:a") (JStr "Alice") session_exists;
    Dispatch (showWarningNotification
      {| titleKey := Some "videoSIPGW.errorAlreadyInvited";
         titleArguments := Some [("displayName", JStr "Alice")];
         descriptionKey := None;
         descriptionArguments := None |})]).
Proof. reflexivity. Qed.

(** An empty address counts as no address. *)
Example invite_skips_empty_address :
  created (trace_of (sample_invite (JStr "available") []
                       [{| id := JStr ""; name := JStr "Eve" |}])) = [].
Proof. reflexivity. Qed.

Lemma C1_witness :
  (exists n,
     dispatched (trace_of (sample_invite (JStr "available")
                             [NewSession (Session 5); no_connection]
                             [alice; bob; carol])) = [n] /\
     is_notification error n = true /\
     created (trace_of (sample_invite (JStr "available")
                          [NewSession (Session 5); no_connection]
                          [alice; bob; carol])) =
       [call_for sample_conf alice; call_for sample_conf bob]) /\
  (exists n,
     dispatched (trace_of (sample_invite (JStr "available")
                             [NewSession (Session 5); session_exists]
                             [alice; bob; carol])) = [n] /\
     is_notification warning n = true /\
     title_arguments n = Some [("displayName", JStr "Bob")]).
Proof.
  split.
  - destruct (proj1 (C1_recognized_error_notifies_and_stops
      (K := sample_constants) (B := sample_builtins) (V := scripted_gw)
      sample_next [alice] bob [carol] sample_conf
      (sample_world (JStr "available") [NewSession (Session 5); no_connection])
      {| w_store := {| joining := Conference 7; status := JStr "available" |};
         w_engine := {| script := [no_connection];
                        running := [Session 5] |} |}
      [Create sample_conf (JStr "sip:a") (JStr "Alice")
         (NewSession (Session 5));
       Start (Session 5)]
      {| message := JStr "error_no_connection" |}
      {| script := []; running := [Session 5] |}
      eq_refl ltac:(discriminate) ltac:(discriminate)
      eq_refl eq_refl eq_refl) eq_refl) as (n & _ & Hd & Hn & Hc).
    exists n. repeat split; assumption.
  - destruct (proj2 (C1_recognized_error_notifies_and_stops
      (K := sample_constants) (B := sample_builtins) (V := scripted_gw)
      sample_next [alice] bob [carol] sample_conf
      (sample_world (JStr "available") [NewSession (Session 5); session_exists])
      {| w_store := {| joining := Conference 7; status := JStr "available" |};
         w_engine := {| script := [session_exists];
                        running := [Session 5] |} |}
      [Create sample_conf (JStr "sip:a") (JStr "Alice")
         (NewSession (Session 5));
       Start (Session 5)]
      {| message := JStr "error_session_already_exists" |}
      {| script := []; running := [Session 5] |}
      eq_refl ltac:(discriminate) ltac:(discriminate)
      eq_refl eq_refl eq_refl) eq_refl ltac:(discriminate))
      as (n & _ & Hd & Hn & Ha & _).
    exists n. repeat split; assumption.
Defined.

Lemma C2_witness :
  (exists n,
     dispatched (trace_of (sample_invite (JStr "undefined") [] [alice; bob]))
       = [n] /\
     is_notification error n = true /\
     created (trace_of (sample_invite (JStr "undefined") [] [alice; bob]))
       = []) /\
  (exists n,
     dispatched (trace_of (sample_invite (JStr "busy") [] [alice; bob]))
       = [n] /\
     is_notification warning n = true /\
     created (trace_of (sample_invite (JStr "busy") [] [alice; bob])) = []).
Proof.
  split.
  - destruct (proj1 (C2_undefined_or_busy_stops
      (K := sample_constants) (B := sample_builtins) (V := scripted_gw)
      sample_next [alice; bob] sample_conf
      (sample_world (JStr "undefined") [])) eq_refl)
      as (n & Hd & Hn & Hc & _).
    exists n. repeat split; assumption.
  - destruct (proj2 (C2_undefined_or_busy_stops
      (K := sample_constants) (B := sample_builtins) (V := scripted_gw)
      sample_next [alice; bob] sample_conf
      (sample_world (JStr "busy") [])) eq_refl ltac:(discriminate))
      as (n & Hd & Hn & Hc & _).
    exists n. repeat split; assumption.
Defined.

Lemma C3_witness :
  created (trace_of (sample_invite (JStr "available") [] [alice; bob])) =
    [call_for sample_conf alice; call_for sample_conf bob] /\
  started (trace_of (sample_invite (JStr "available") [] [alice; bob])) =
    created_sessions
      (trace_of (sample_invite (JStr "available") [] [alice; bob])) /\
  length (started
            (trace_of (sample_invite (JStr "available") [] [alice; bob]))) = 2 /\
  dispatched (trace_of (sample_invite (JStr "available") [] [alice; bob])) =
    [] /\
  value_of (sample_invite (JStr "available") [] [alice; bob]) =
    Return (JStr "next-result").
Proof.
  exact (C3_all_rooms_invited_in_order
    (K := sample_constants) (B := sample_builtins) (V := scripted_gw)
    sample_next [alice; bob] sample_conf (sample_world (JStr "available") [])
    eq_refl ltac:(discriminate) ltac:(discriminate) eq_refl eq_refl).
Defined.

Lemma C4_witness :
  exists n,
    _sessionStateChanged (K := sample_constants)
      {| newState := JStr "failed"; displayName := JStr "Alice" |} = Some n /\
    is_notification error n = true /\
    title_arguments n = Some [("displayName", JStr "Alice")].
Proof.
  destruct (proj1 (proj2 (proj2 (C4_session_state_notifications
    (K := sample_constants) (B := sample_builtins) (V := scripted_gw)
    sample_next (sample_world (JStr "available") [])
    {| newState := JStr "failed"; displayName := JStr "Alice" |}
    ltac:(discriminate)))) eq_refl) as (n & Hs & _ & Hn & Ha).
  exists n. repeat split; assumption.
Defined.



Lemma C7_witness :
  logged (trace_of (sample_invite (JStr "available") [out_of_memory]
                      [alice; bob])) =
    [UnknownCreateError {| message := JStr "out of memory" |}] /\
  dispatched (trace_of (sample_invite (JStr "available") [out_of_memory]
                          [alice; bob])) = [] /\
  created (trace_of (sample_invite (JStr "available") [out_of_memory]
                       [alice; bob])) = [call_for sample_conf alice] /\
  value_of (sample_invite (JStr "available") [out_of_memory] [alice; bob]) =
    Return JUndefined.
Proof.
  destruct (C7_unrecognized_error_logged_and_stops
    (K := sample_constants) (B := sample_builtins) (V := scripted_gw)
    sample_next [] alice [bob] sample_conf
    (sample_world (JStr "available") [out_of_memory])
    (sample_world (JStr "available") [out_of_memory])
    []
    {| message := JStr "out of memory" |}
    {| script := []; running := [] |}
    eq_refl ltac:(discriminate) ltac:(discriminate) eq_refl eq_refl eq_refl
    ltac:(discriminate) ltac:(discriminate))
    as (_ & Hl & Hd & Hc & Hv).
  repeat split; assumption.
Defined.

Lemma C8_witness :
  status_read sample_next (SIP_GW_INVITE_ROOMS [alice] sample_conf)
    (sample_world (JStr "available") []) =
    STATUS_AVAILABLE (JitsiSIPVideoGWStatus := sample_constants) /\
  trace_of (sample_invite (JStr "retrying") [] [alice; bob]) =
    [Next (SIP_GW_INVITE_ROOMS [alice; bob] sample_conf);
     LoggerError (UnknownStatus "retrying")] /\
  value_of (sample_invite (JStr "retrying") [] [alice; bob]) =
    Return JUndefined.
Proof.
  split.
  - exact (proj1 (C8_sessions_created_only_when_available
      (K := sample_constants) (B := sample_builtins) (V := scripted_gw)
      sample_next [alice] sample_conf (sample_world (JStr "available") []))
      ltac:(discriminate)).
  - exact (proj2 (proj2 (proj2 (proj2 (C8_sessions_created_only_when_available
      (K := sample_constants) (B := sample_builtins) (V := scripted_gw)
      sample_next [alice; bob] sample_conf
      (sample_world (JStr "retrying") []))
      ltac:(discriminate) ltac:(discriminate) ltac:(discriminate))))
      "retrying" eq_refl).
Defined.

(** The status is an object that has no text and is none of the three
    constants: building the log message throws, so no unknown-status entry
    is logged, whatever its text, and the call does not return. *)
Lemma C8_counterexample :
  JObj 0 <> STATUS_UNDEFINED (JitsiSIPVideoGWStatus := sample_constants) /\
  JObj 0 <> STATUS_BUSY (JitsiSIPVideoGWStatus := sample_constants) /\
  JObj 0 <> STATUS_AVAILABLE (JitsiSIPVideoGWStatus := sample_constants) /\
  trace_of (sample_invite (JObj 0) [] [alice]) =
    [Next (SIP_GW_INVITE_ROOMS [alice] sample_conf)] /\
  logged (trace_of (sample_invite (JObj 0) [] [alice])) = [] /\
  value_of (sample_invite (JObj 0) [] [alice]) = Throw TypeError.
Proof. repeat split; discriminate. Qed.



(** * Further properties of the loop *)

Section LoopInvariants.

Context {K : JitsiSIPVideoGWStatus} {B : JSBuiltins}.
Context {Engine : Type} {V : VideoSIPGW Engine}.

Implicit Types (w : world Engine) (conf : conference) (r : room)
  (next : next_fn) (a : action).

(** What holds of every run of the loop, however it ends. *)
Lemma inviteRooms_invariant conf l w :
  let t := trace_of (inviteRooms conf l w) in
  started t = created_sessions t /\
  registered t = [] /\
  (length (dispatched t) <= 1)%nat /\
  Forall (fun n => is_error_or_warning n = true) (dispatched t) /\
  (dispatched t <> [] ->
   value_of (inviteRooms conf l w) = Return JUndefined) /\
  (length (create_errors t) <= 1)%nat /\
  length (create_errors t) =
    (length (dispatched t)
     + length (filter is_unknown_create_error (logged t)))%nat /\
  length (created t) =
    (length (started t) + length (create_errors t))%nat /\
  exists k, created t =
    map (call_for conf) (firstn k (filter has_address_and_name l)).
Proof.
  cbv zeta. revert l w.
  apply (inviteRooms_run_ind conf
    (fun l w run =>
       started (trace_of run) = created_sessions (trace_of run) /\
       registered (trace_of run) = [] /\
       (length (dispatched (trace_of run)) <= 1)%nat /\
       Forall (fun n => is_error_or_warning n = true)
         (dispatched (trace_of run)) /\
       (dispatched (trace_of run) <> [] ->
        value_of run = Return JUndefined) /\
       (length (create_errors (trace_of run)) <= 1)%nat /\
       length (create_errors (trace_of run)) =
         (length (dispatched (trace_of run))
          + length (filter is_unknown_create_error
                      (logged (trace_of run))))%nat /\
       length (created (trace_of run)) =
         (length (started (trace_of run))
          + length (create_errors (trace_of run)))%nat /\
       exists k, created (trace_of run) =
         map (call_for conf) (firstn k (filter has_address_and_name l))));
    unfold trace_of, value_of; cbn [fst snd].
  - intros w. cbn. repeat apply conj; auto; try (intros H; now elim H).
    now exists 0%nat.
  - intros r rest w json c w' t Hr _ _
      (Hs & Hg & Hd & Hf & Hv & He & Ha & Hc & k & Hk).
    cbn. fold (started t) (created_sessions t) (registered t) (dispatched t)
      (create_errors t) (logged t) (created t).
    rewrite Hr. repeat apply conj; auto. now exists k.
  - intros r rest w Hr _. cbn.
    repeat apply conj; auto; try (intros H; now elim H). now exists 0%nat.
  - intros r rest w s e c w' t Hr _ _
      (Hs & Hg & Hd & Hf & Hv & He & Ha & Hc & k & Hk).
    cbn. fold (started t) (created_sessions t) (registered t) (dispatched t)
      (create_errors t) (logged t) (created t).
    rewrite Hr. repeat apply conj; auto; try congruence.
    exists (S k). cbn. now rewrite Hk.
  - intros r rest w x e ev Hr _ [(n & -> & Hn) | ->]; cbn; rewrite Hr;
      repeat apply conj; auto; try discriminate;
      try (intros H; now elim H); now exists 1%nat.
Qed.

End LoopInvariants.

(** * Further properties of the middleware *)

Section MiddlewareInvariants.

Context {K : JitsiSIPVideoGWStatus} {B : JSBuiltins}.
Context {Engine : Type} {V : VideoSIPGW Engine}.

Implicit Types (w : world Engine) (conf : conference) (r : room)
  (next : next_fn) (a : action).

(** An action the switch has no case for only goes through [next]. *)
Lemma middleware_passes_through next a w :
  passes_through a = true ->
  middleware next a w =
  (Return (result_of_next next a w), after_next next a w, [Next a]).
Proof.
  intros H. rewrite middleware_run.
  destruct a; try discriminate; reflexivity.
Qed.

(** What holds of every run of the switch. *)
Lemma handle_invariant a w :
  let t := trace_of (handle a w) in
  started t = created_sessions t /\
  (length (dispatched t) <= 1)%nat /\
  Forall (fun n => is_error_or_warning n = true) (dispatched t) /\
  (dispatched t <> [] -> value_of (handle a w) = Return JUndefined) /\
  w_store (world_of (handle a w)) = w_store w.
Proof.
  cbv zeta.
  destruct a as [|rooms conf|st|n|ty];
    try (cbn; repeat apply conj; auto; intros H; now elim H).
  destruct (handle_invite_shape rooms conf w)
    as [[_ ->] | [(ev & -> & [(n & -> & Hn) | (text & _ & ->)]) | [_ ->]]].
  - destruct (inviteRooms_invariant conf rooms w)
      as (Hs & _ & Hd & Hf & Hv & _).
    repeat apply conj; auto. apply inviteRooms_store.
  - cbn. repeat apply conj; auto.
  - cbn. repeat apply conj; auto.
  - cbn. repeat apply conj; auto. intros H; now elim H.
Qed.

(** X1: on conference-will-join the middleware calls [next], then
    registers the availability listener and the session-state listener, in
    that order, on the conference the store holds as [joining] once [next]
    has run; it does nothing else and returns what [next] returned. *)
Theorem X1_will_join_registers_on_joining_conference next w :
  middleware next CONFERENCE_WILL_JOIN w =
  (Return (result_of_next next CONFERENCE_WILL_JOIN w),
   after_next next CONFERENCE_WILL_JOIN w,
   [Next CONFERENCE_WILL_JOIN;
    ConferenceOn (joining (snd (next CONFERENCE_WILL_JOIN (w_store w))))
      VIDEO_SIP_GW_AVAILABILITY_CHANGED AvailabilityListener;
    ConferenceOn (joining (snd (next CONFERENCE_WILL_JOIN (w_store w))))
      VIDEO_SIP_GW_SESSION_STATE_CHANGED SessionStateListener]).
Proof. rewrite middleware_run. reflexivity. Qed.

(** X2: no action other than conference-will-join makes the middleware
    register a listener; in particular invite-rooms never does, whatever
    the status, the rooms and the answers of the library. *)
Theorem X2_listeners_registered_only_on_will_join next a w :
  a <> CONFERENCE_WILL_JOIN ->
  registered (trace_of (middleware next a w)) = [].
Proof.
  intros Ha. rewrite middleware_run.
  destruct a as [|rooms conf|st|n|ty]; try reflexivity; [now elim Ha|].
  destruct (handle_invite_shape rooms conf
              (after_next next (SIP_GW_INVITE_ROOMS rooms conf) w))
    as [[_ ->] | [(ev & -> & [(n & -> & Hn) | (text & _ & ->)]) | [_ ->]]];
    try reflexivity.
  destruct (inviteRooms_invariant conf rooms
              (after_next next (SIP_GW_INVITE_ROOMS rooms conf) w))
    as (_ & Hg & _).
  destruct (inviteRooms conf rooms _) as [[c w'] t]. exact Hg.
Qed.

(** X3: the middleware does not react to its own output.  Every action
    dispatched by the middleware, or by one of the two listeners it
    registers, is an action the switch has no case for: when it comes back
    through the chain the middleware only hands it to [next] and returns
    what [next] returned. *)
Theorem X3_dispatched_actions_pass_through next a w l arg b :
  In b (dispatched (trace_of (middleware next a w))) \/
  In b (dispatched (trace_of (call_listener l arg w))) ->
  forall next' w',
    middleware next' b w' =
    (Return (result_of_next next' b w'), after_next next' b w', [Next b]).
Proof.
  intros H next' w'. apply middleware_passes_through.
  destruct H as [H | H].
  - rewrite middleware_run in H.
    destruct (handle_invariant a (after_next next a w)) as (_ & _ & Hf & _).
    destruct (handle a _) as [[c w1] t].
    unfold trace_of in *. cbn [snd] in *.
    cbn in H. fold (dispatched t) in H.
    rewrite Forall_forall in Hf. specialize (Hf b H).
    destruct b; try reflexivity; discriminate.
  - destruct l; cbn [call_listener] in H.
    + cbn in H. destruct H as [<- | []]. reflexivity.
    + unfold sessionStateListener, _sessionStateChanged in H.
      destruct (strict_eq (newState arg) STATE_PENDING);
        [cbn in H; destruct H as [<- | []]; reflexivity|].
      destruct (strict_eq (newState arg) STATE_FAILED); cbn in H;
        [destruct H as [<- | []]; reflexivity | destruct H].
Qed.


(** X5: whatever the action, the status, the rooms and the library's
    answers, one run of the middleware dispatches at most one action; what
    it dispatches is an error or a warning notification; and a run that
    dispatched something returns [undefined]. *)
Theorem X5_at_most_one_notification next a w :
  (length (dispatched (trace_of (middleware next a w))) <= 1)%nat /\
  Forall (fun n => is_error_or_warning n = true)
    (dispatched (trace_of (middleware next a w))) /\
  (dispatched (trace_of (middleware next a w)) <> [] ->
   value_of (middleware next a w) = Return JUndefined).
Proof.
  rewrite middleware_run.
  destruct (handle_invariant a (after_next next a w))
    as (_ & Hd & Hf & Hv & _).
  destruct (handle a _) as [[c w1] t].
  unfold trace_of, value_of in *. cbn [fst snd] in *.
  cbn. fold (dispatched t).
  repeat apply conj; auto.
  intros H. rewrite (Hv H). reflexivity.
Qed.

(** X6: [start()] is called on exactly the sessions
    [createVideoSIPGWSession] returned, in the order they were returned:
    every session created is started, even in a run that stops at a later
    room, and nothing else is ever started. *)
Theorem X6_every_created_session_is_started next a w :
  started (trace_of (middleware next a w)) =
  created_sessions (trace_of (middleware next a w)).
Proof.
  rewrite middleware_run.
  destruct (handle_invariant a (after_next next a w)) as (Hs & _).
  destruct (handle a _) as [[c w1] t].
  unfold trace_of in *. cbn [snd] in *. exact Hs.
Qed.

(** X7: the [createVideoSIPGWSession] calls of an invite-rooms command
    are made on the conference carried by the action, with the address and
    display name of the rooms that pass the test, in the order of the
    rooms and without gaps: they cover an initial stretch of those rooms,
    each exactly once. *)
Theorem X7_calls_follow_the_rooms_in_order next rooms conf w :
  exists k,
    created (trace_of (middleware next (SIP_GW_INVITE_ROOMS rooms conf) w)) =
    map (call_for conf) (firstn k (filter has_address_and_name rooms)).
Proof.
  rewrite middleware_run.
  destruct (handle_invite_shape rooms conf
              (after_next next (SIP_GW_INVITE_ROOMS rooms conf) w))
    as [[_ ->] | [(ev & -> & [(n & -> & Hn) | (text & _ & ->)]) | [_ ->]]];
    try (now exists 0%nat).
  destruct (inviteRooms_invariant conf rooms
              (after_next next (SIP_GW_INVITE_ROOMS rooms conf) w))
    as (_ & _ & _ & _ & _ & _ & _ & _ & k & Hk).
  destruct (inviteRooms conf rooms _) as [[c w'] t].
  exists k. exact Hk.
Qed.

(** X8: under status AVAILABLE an invite-rooms command gets at most one
    error back from [createVideoSIPGWSession], and each error is reported
    exactly once, by a notification or by the unknown-error log entry; no
    notification and no such entry appears without an error.  Every other
    call was followed by a [start()]. *)
Theorem X8_every_error_is_reported_once next rooms conf w :
  let a := SIP_GW_INVITE_ROOMS rooms conf in
  let t := trace_of (middleware next a w) in
  status_read next a w = STATUS_AVAILABLE ->
  STATUS_AVAILABLE <> STATUS_UNDEFINED ->
  STATUS_AVAILABLE <> STATUS_BUSY ->
  (length (create_errors t) <= 1)%nat /\
  length (create_errors t) =
    (length (dispatched t)
     + length (filter is_unknown_create_error (logged t)))%nat /\
  length (created t) = (length (started t) + length (create_errors t))%nat.
Proof.
  intros a t Hs Hu Hb. subst t. rewrite middleware_run. subst a.
  rewrite (handle_available _ _ _ Hs Hu Hb).
  destruct (inviteRooms_invariant conf rooms
              (after_next next (SIP_GW_INVITE_ROOMS rooms conf) w))
    as (_ & _ & _ & _ & _ & He & Ha & Hc & _).
  destruct (inviteRooms conf rooms _) as [[c w'] t].
  unfold trace_of in *. cbn [snd] in *.
  repeat apply conj; assumption.
Qed.

(** X9: the loop over [l1 ++ l2].  If the loop over [l1] returns early or
    is left by an exception, the loop over [l1 ++ l2] is that very run:
    [l2] changes nothing.  If the loop over [l1] runs off its end, the
    loop over [l1 ++ l2] is that run followed by the loop over [l2] from
    the state it left. *)
Theorem X9_loop_over_concatenation conf l1 l2 w c1 w1 t1 :
  inviteRooms conf l1 w = (c1, w1, t1) ->
  inviteRooms conf (l1 ++ l2) w =
  match c1 with
  | Return v => (Return v, w1, t1)
  | Throw e => (Throw e, w1, t1)
  | Normal =>
      (value_of (inviteRooms conf l2 w1),
       world_of (inviteRooms conf l2 w1),
       t1 ++ trace_of (inviteRooms conf l2 w1))
  end.
Proof.
  intros H. rewrite inviteRooms_app, H.
  destruct c1 as [|v|e]; [|reflexivity|reflexivity].
  destruct (inviteRooms conf l2 w1) as [[c2 w2] t2]. reflexivity.
Qed.

(** X10: under status AVAILABLE, when no room passes the test (the empty
    list of rooms included) and [JSON.stringify] returns a text for every
    room, the command writes one log entry per room, in order, each with
    the text of its room, makes no call into the library, dispatches
    nothing and returns what [next] returned. *)
Theorem X10_no_usable_room_only_logs next rooms texts conf w :
  let a := SIP_GW_INVITE_ROOMS rooms conf in
  status_read next a w = STATUS_AVAILABLE ->
  STATUS_AVAILABLE <> STATUS_UNDEFINED ->
  STATUS_AVAILABLE <> STATUS_BUSY ->
  forallb (fun r => negb (has_address_and_name r)) rooms = true ->
  map JSON_stringify rooms = map Some texts ->
  middleware next a w =
  (Return (result_of_next next a w), after_next next a w,
   Next a :: map skipped texts).
Proof.
  intros a Hs Hu Hb Hall Hj. rewrite middleware_run. subst a.
  rewrite (handle_available _ _ _ Hs Hu Hb).
  generalize (after_next next (SIP_GW_INVITE_ROOMS rooms conf) w) as w0.
  generalize (result_of_next next (SIP_GW_INVITE_ROOMS rooms conf) w) as res.
  generalize (Next (SIP_GW_INVITE_ROOMS rooms conf)) as ev.
  intros ev res w0. clear Hs.
  assert (H : inviteRooms conf rooms w0 = (Normal, w0, map skipped texts)).
  { revert texts Hj. induction rooms as [|r rooms IH]; intros texts Hj.
    - destruct texts; [reflexivity|discriminate].
    - destruct texts as [|json texts]; [discriminate|].
      cbn [map] in Hj. injection Hj as Hr' Hj.
      cbn [forallb] in Hall. apply andb_true_iff in Hall as [Hr Hrest].
      apply negb_true_iff in Hr.
      rewrite (inviteRooms_skip _ _ _ _ _ Hr Hr'), (IH Hrest _ Hj).
      reflexivity. }
  rewrite H. reflexivity.
Qed.

(** X11: nothing guards the registration.  Two conference-will-join
    actions in a row register four listeners; when the store holds the
    same [joining] conference both times, each listener is registered a
    second time on the same conference for the same event. *)
Theorem X11_will_join_twice_registers_twice next next' w :
  let run1 := middleware next CONFERENCE_WILL_JOIN w in
  let run2 := middleware next' CONFERENCE_WILL_JOIN (world_of run1) in
  length (registered (trace_of run1 ++ trace_of run2)) = 4%nat /\
  (joining (w_store (world_of run2)) = joining (w_store (world_of run1)) ->
   ~ NoDup (registered (trace_of run1 ++ trace_of run2))).
Proof.
  cbv zeta. rewrite !middleware_run.
  unfold world_of, trace_of, after_next. cbn [handle].
  unfold bind, getState, conference_on, ret. cbn [fst snd w_store w_engine].
  split; [reflexivity|].
  cbn. intros ->. intros H. inversion H as [|? ? Hin _]; subst.
  apply Hin. right. left. reflexivity.
Qed.

End MiddlewareInvariants.

(** * Concrete runs of the further properties *)

Lemma X2_witness :
  registered (trace_of (sample_invite (JStr "available") [] [alice; bob])) = [].
Proof.
  apply (X2_listeners_registered_only_on_will_join
    (K := sample_constants) (B := sample_builtins) (V := scripted_gw)).
  discriminate.
Defined.

Lemma X3_witness :
  middleware (K := sample_constants) (B := sample_builtins) (V := scripted_gw) sample_next
    (showWarningNotification
       {| titleKey := Some "videoSIPGW.busyTitle";
          titleArguments := None;
          descriptionKey := Some "videoSIPGW.busy";
          descriptionArguments := None |})
    (sample_world (JStr "busy") []) =
  (Return (JStr "next-result"), sample_world (JStr "busy") [],
   [Next (showWarningNotification
       {| titleKey := Some "videoSIPGW.busyTitle";
          titleArguments := None;
          descriptionKey := Some "videoSIPGW.busy";
          descriptionArguments := None |})]).
Proof.
  apply (X3_dispatched_actions_pass_through
    (K := sample_constants) (B := sample_builtins) (V := scripted_gw)
    sample_next (SIP_GW_INVITE_ROOMS [alice] sample_conf)
    (sample_world (JStr "busy") []) AvailabilityListener []).
  left. left. reflexivity.
Defined.


Lemma X8_witness :
  length (create_errors
            (trace_of (sample_invite (JStr "available")
                         [NewSession (Session 5); out_of_memory]
                         [alice; bob; carol]))) =
  (length (dispatched
             (trace_of (sample_invite (JStr "available")
                          [NewSession (Session 5); out_of_memory]
                          [alice; bob; carol])))
   + length (filter is_unknown_create_error
               (logged
                  (trace_of (sample_invite (JStr "available")
                               [NewSession (Session 5); out_of_memory]
                               [alice; bob; carol])))))%nat.
Proof.
  apply (X8_every_error_is_reported_once
    (K := sample_constants) (B := sample_builtins) (V := scripted_gw)
    sample_next [alice; bob; carol] sample_conf
    (sample_world (JStr "available") [NewSession (Session 5); out_of_memory]));
    [reflexivity | discriminate | discriminate].
Defined.

Lemma X9_witness :
  inviteRooms (K := sample_constants) (B := sample_builtins)
    (V := scripted_gw) sample_conf
    ([alice; bob] ++ [carol])
    (sample_world (JStr "available") [NewSession (Session 5); no_connection]) =
  inviteRooms (K := sample_constants) (B := sample_builtins)
    (V := scripted_gw) sample_conf
    [alice; bob]
    (sample_world (JStr "available") [NewSession (Session 5); no_connection]).
Proof.
  rewrite (X9_loop_over_concatenation
    (K := sample_constants) (B := sample_builtins) (V := scripted_gw)
    sample_conf [alice; bob] [carol]
    (sample_world (JStr "available") [NewSession (Session 5); no_connection])
    (Return JUndefined)
    {| w_store := {| joining := Conference 7; status := JStr "available" |};
       w_engine := {| script := []; running := [Session 5] |} |}
    (trace_of (inviteRooms (K := sample_constants) (B := sample_builtins)
                 (V := scripted_gw)
                 sample_conf [alice; bob]
                 (sample_world (JStr "available")
                    [NewSession (Session 5); no_connection])))
    eq_refl).
  reflexivity.
Defined.

Lemma X10_witness :
  sample_invite (JStr "available") [no_connection] [no_id; nameless] =
  (Return (JStr "next-result"),
   sample_world (JStr "available") [no_connection],
   [Next (SIP_GW_INVITE_ROOMS [no_id; nameless] sample_conf);
    skipped no_id_json; skipped nameless_json]).
Proof.
  apply (X10_no_usable_room_only_logs
    (K := sample_constants) (B := sample_builtins) (V := scripted_gw)
    sample_next [no_id; nameless] [no_id_json; nameless_json] sample_conf
    (sample_world (JStr "available") [no_connection]));
    [reflexivity | discriminate | discriminate | reflexivity | reflexivity].
Defined.

Lemma X11_witness :
  ~ NoDup (registered
      (trace_of (middleware (K := sample_constants) (B := sample_builtins) (V := scripted_gw)
                   sample_next CONFERENCE_WILL_JOIN
                   (sample_world (JStr "undefined") []))
       ++ trace_of (middleware (K := sample_constants) (B := sample_builtins) (V := scripted_gw)
                      sample_next CONFERENCE_WILL_JOIN
                      (world_of
                         (middleware (K := sample_constants) (B := sample_builtins)
                            (V := scripted_gw) sample_next
                            CONFERENCE_WILL_JOIN
                            (sample_world (JStr "undefined") [])))))).
Proof.
  apply (X11_will_join_twice_registers_twice
    (K := sample_constants) (B := sample_builtins) (V := scripted_gw)
    sample_next sample_next (sample_world (JStr "undefined") [])).
  reflexivity.
Defined.
